(** * Role-gated agent data access

    The development follows the two agent scripts of the repository:

    - [agent-data-acesss-scenarios_limited.py]: the data-access tools, the
      role store lookup [get_user_roles] and the role-gated communication
      flow (module [ScenariosLimited]);
    - [agent-data-acesss-scenario_one.py]: the single-scenario variant of the
      tools (module [ScenarioOne]).

    The external collaborators (database driver, HTTP client, role file)
    appear as interfaces whose calls may return or raise; the agent service
    appears as the list of calls made on the conversation thread. *)

From Stdlib Require Import String Ascii List Bool ZArith Lia DecimalString.
Import ListNotations.

Open Scope string_scope.

(** ** Python built-ins the scripts rely on *)

Module Py.

(** [x in l] for a list of strings. *)
Definition contains (x : string) (l : list string) : bool :=
  existsb (String.eqb x) l.

(** The one-character string written ["\n"] in the source. *)
Definition LF : string := String (ascii_of_nat 10) EmptyString.

(** [sep.join(l)]. *)
Definition join (sep : string) (l : list string) : string :=
  String.concat sep l.

(** Truth value of a list: [if rows], [if not results]. *)
Definition truthy {A : Type} (l : list A) : bool :=
  match l with
  | [] => false
  | _ :: _ => true
  end.

(** [l[:n]]. *)
Definition slice_to {A : Type} (n : nat) (l : list A) : list A := firstn n l.

(** [d.get(k, default)] on a value whose key may be absent. *)
Definition get {A : Type} (field : option A) (default : A) : A :=
  match field with
  | Some v => v
  | None => default
  end.

(** [needle in hay] for two strings. *)
Fixpoint occurs (needle hay : string) : bool :=
  if String.prefix needle hay then true
  else match hay with
       | EmptyString => false
       | String _ rest => occurs needle rest
       end.

(** [s * n]. *)
Fixpoint repeat (s : string) (n : nat) : string :=
  match n with
  | O => ""
  | S n' => s ++ repeat s n'
  end.

(** [str(n)] for an integer. *)
Definition str_int (z : Z) : string := NilZero.string_of_int (Z.to_int z).

End Py.

(** ** Calls that may raise *)

(** What a call can raise: an instance of some exception class, named by
    [exn_class]; [exn_str e] is [str(e)]. *)
Record exn : Type := Exception {
  exn_class : string;
  exn_str : string
}.

Inductive outcome (A : Type) : Type :=
| Return (a : A)
| Raise (e : exn).

Arguments Return {A} a.
Arguments Raise {A} e.

(** A statement run in a world [W] (database server, network, files): it
    returns or raises, and leaves a world behind in both cases. *)
Definition M (W A : Type) : Type := W -> outcome A * W.

Definition ret {W A : Type} (a : A) : M W A := fun w => (Return a, w).

Definition bind {W A B : Type} (m : M W A) (k : A -> M W B) : M W B :=
  fun w =>
    match m w with
    | (Return a, w') => k a w'
    | (Raise e, w') => (Raise e, w')
    end.

(** [isinstance(e, Exception)].  The built-in classes that derive from
    [BaseException] without deriving from [Exception] are listed; every
    other class, those of the database driver and of the HTTP client
    included, derives from [Exception]. *)
Definition isinstance_Exception (e : exn) : bool :=
  negb (existsb (String.eqb (exn_class e))
          ["BaseException"; "KeyboardInterrupt"; "SystemExit"; "GeneratorExit"]).

(** [try: body  except Exception as e: handler].  An exception that is no
    instance of [Exception] passes through. *)
Definition try_except {W A : Type} (body : M W A) (handler : exn -> M W A)
  : M W A :=
  fun w =>
    match body w with
    | (Return a, w') => (Return a, w')
    | (Raise e, w') =>
        if isinstance_Exception e then handler e w' else (Raise e, w')
    end.

(** Outcome of a pure call that may raise, such as [response.json()]. *)
Definition lift {W A : Type} (o : outcome A) : M W A := fun w => (o, w).

Declare Scope py_scope.
Delimit Scope py_scope with py.

Notation "x <- m ;; k" := (bind m (fun x => k))
  (at level 61, m at next level, right associativity) : py_scope.
Notation "m ;;; k" := (bind m (fun _ => k))
  (at level 61, right associativity) : py_scope.

(** ** External collaborators *)

(** The part of [psycopg2] the tools use.  [row] is a [RealDictRow];
    [str_row] is [str(row)]. *)
Class Psycopg2 (W conn cursor row : Type) : Type := {
  connect : option string -> M W conn;
  conn_cursor : conn -> M W cursor;
  execute : cursor -> string -> M W unit;
  fetchall : cursor -> M W (list row);
  conn_close : conn -> M W unit;
  str_row : row -> string
}.

(** One entry of the search provider's [organic] array, carrying both of
    the keys the tools read. *)
Record organic_result : Type := {
  title : string;
  link : string
}.

(** The decoded body of a search response; [organic = None] when the key is
    absent from the object. *)
Record search_body : Type := {
  organic : option (list organic_result)
}.

(** The decoded body of a quote response: the items of its [Global Quote]
    object, [None] when the key is absent. *)
Record quote_body : Type := {
  global_quote : option (list (string * string))
}.

Record response (body : Type) : Type := {
  status_code : Z;
  text : string;
  json : outcome body
}.

Arguments status_code {body} r.
Arguments text {body} r.
Arguments json {body} r.

(** The part of [requests] the tools use. *)
Class Requests (W : Type) : Type := {
  requests_get : string -> M W (response quote_body);
  requests_post :
    string -> list (string * option string) -> string -> M W (response search_body)
}.

(** One entry of the role file's [users] sequence. *)
Record user_entry : Type := {
  username : string;
  roles : list string
}.

(** [yaml.safe_load(open(path))['users']]. *)
Class RoleFile (W : Type) : Type := {
  safe_load_users : string -> M W (list user_entry)
}.

(** The glyph that opens every error string of the tools (U+274C, three
    bytes in UTF-8). *)
Definition error_marker : string :=
  String (ascii_of_nat 226)
    (String (ascii_of_nat 157) (String (ascii_of_nat 140) EmptyString)).

(** ** agent-data-acesss-scenarios_limited.py *)

Module ScenariosLimited.

Section Tools.

Context {W conn cursor row : Type}.
Context {DB : Psycopg2 W conn cursor row}.
Context {HTTP : Requests W}.
Context {FS : RoleFile W}.

(** Module-level configuration read with [os.getenv]. *)
Variable NEON_DB_URL : option string.
Variable ALPHA_VANTAGE_API_KEY : option string.
Variable SERPER_API_KEY : option string.

Open Scope py_scope.

Definition query_finance_data_try : M W string :=
  conn <- connect NEON_DB_URL ;;
  cursor <- conn_cursor conn ;;
  execute cursor "SELECT * FROM finance" ;;;
  rows <- fetchall cursor ;;
  conn_close conn ;;;
  ret (if Py.truthy rows
       then Py.join Py.LF (map str_row rows)
       else "No finance data found.").

Definition query_finance_data : M W string :=
  try_except query_finance_data_try
    (fun e => ret (error_marker ++ " Error querying Neon: " ++ exn_str e)).

Definition query_limited_finance_data_try : M W string :=
  conn <- connect NEON_DB_URL ;;
  cursor <- conn_cursor conn ;;
  execute cursor "SELECT company, stock_price FROM finance" ;;;
  rows <- fetchall cursor ;;
  conn_close conn ;;;
  ret (if Py.truthy rows
       then Py.join Py.LF (map str_row rows)
       else "No limited finance data found.").

Definition query_limited_finance_data : M W string :=
  try_except query_limited_finance_data_try
    (fun e => ret (error_marker ++ " Error querying Neon: " ++ exn_str e)).

Definition query_row_level_finance_data_try : M W string :=
  conn <- connect NEON_DB_URL ;;
  cursor <- conn_cursor conn ;;
  execute cursor "SELECT * FROM finance WHERE user_role = 'restricted'" ;;;
  rows <- fetchall cursor ;;
  conn_close conn ;;;
  ret (if Py.truthy rows
       then Py.join Py.LF (map str_row rows)
       else "No row level restricted data found.").

Definition query_row_level_finance_data : M W string :=
  try_except query_row_level_finance_data_try
    (fun e => ret (error_marker ++ " Error querying Neon: " ++ exn_str e)).

Definition fetch_financial_data : M W string :=
  let url :=
    "https://www.alphavantage.co/query?function=GLOBAL_QUOTE&symbol=IBM&apikey="
    ++ Py.get ALPHA_VANTAGE_API_KEY "None" in
  response <- requests_get url ;;
  if (status_code response =? 200)%Z then
    body <- lift (json response) ;;
    let data := Py.get (global_quote body) [] in
    ret (if Py.truthy data
         then Py.join Py.LF (map (fun kv => fst kv ++ ": " ++ snd kv) data)
         else "No stock data found.")
  else
    ret (error_marker ++ " API error: " ++ text response).

Definition search_ibm_news (query : string) : M W string :=
  let url := "https://google.serper.dev/search" in
  let headers :=
    [("X-API-KEY", SERPER_API_KEY);
     ("Content-Type", Some "application/json")] in
  let payload := query in
  response <- requests_post url headers payload ;;
  if (status_code response =? 200)%Z then
    body <- lift (json response) ;;
    let results := Py.get (organic body) [] in
    ret (Py.join Py.LF
           (map (fun r => title r ++ " - " ++ link r)
                (Py.slice_to 3 results)))
  else
    ret (error_marker ++ " Serper API error: " ++ text response).

(** The default of [search_ibm_news]'s [query] parameter. *)
Definition search_ibm_news_default_query : string := "IBM Q4 earnings".

(** The loop of [get_user_roles]: the first entry whose [username]
    equals the argument decides. *)
Fixpoint get_user_roles_loop (users : list user_entry) (name : string)
  : list string :=
  match users with
  | [] => []
  | user :: rest =>
      if String.eqb (username user) name
      then roles user
      else get_user_roles_loop rest name
  end.

Definition get_user_roles (name : string) : M W (list string) :=
  users <- safe_load_users "user_roles.yaml" ;;
  ret (get_user_roles_loop users name).

End Tools.

(** *** Communication flow *)

Inductive agent : Type := data_collector | data_presenter.

(** What the script sends to the agent service on its one thread. *)
Inductive call : Type :=
| create_message (content : string)
| create_and_process_run (agent_id : agent).

(** Finance database task: the pair [(query_task, query_tool)]. *)
Definition finance_database_task (roles : list string) : string * string :=
  if Py.contains "restricted_db" roles then
    ("Query limited finance data", "query_limited_finance_data")
  else if Py.contains "row_restricted" roles then
    ("Query row level restricted finance data", "query_row_level_finance_data")
  else
    ("Query full finance data", "query_finance_data").

Definition query_task (roles : list string) : string :=
  fst (finance_database_task roles).

Definition query_tool (roles : list string) : string :=
  snd (finance_database_task roles).

(** Data presenter task. *)
Definition present_instruction (roles : list string) : string :=
  if Py.contains "mask_data" roles then
    "Summarize the financial data but mask revenue and profit."
  else
    "Summarize the collected financial data into a clean report.".

Definition stock_quote_task : string :=
  "Fetch IBM's latest stock data from Alpha Vantage.".

(** The calls made between [create_thread] and [list_messages], in
    order. *)
Definition communication_flow (roles : list string) : list call :=
  let thread := [] in
  let thread :=
    (thread ++ [create_message "Search for IBM's Q4 financial results from the web.";
                create_and_process_run data_collector])%list in
  let thread :=
    (thread ++ [create_message (query_task roles ++ " from the Neon database.");
                create_and_process_run data_collector])%list in
  let thread :=
    if negb (Py.contains "limited_api_access" roles) then
      (thread ++ [create_message stock_quote_task;
                  create_and_process_run data_collector])%list
    else thread in
  (thread ++ [create_message (present_instruction roles);
              create_and_process_run data_presenter])%list.

(** The task list of a session: the contents of the messages posted. *)
Fixpoint session_tasks (calls : list call) : list string :=
  match calls with
  | [] => []
  | create_message content :: rest => content :: session_tasks rest
  | create_and_process_run _ :: rest => session_tasks rest
  end.

(** The functions handed to [FunctionTool] when the toolset of the data
    collector is built, by name. *)
Definition registered_tools : list string :=
  ["search_ibm_news"; "query_finance_data"; "fetch_financial_data"].

(** *** Display results *)

(** One item of a message's [content] list; [text_value] is
    [item["text"]["value"]], absent when the item has no [text] key. *)
Record content_item : Type := {
  text_value : option string
}.

(** One entry of the [data] list returned by [list_messages]. *)
Record thread_message : Type := {
  role : string;
  content : list content_item
}.

(** Standard output: the strings printed so far, one per [print] call. *)
Definition stdout : Type := list string.

Definition print (s : string) : M stdout unit :=
  fun out => (Return tt, (out ++ [s])%list).

(** [msg["content"][0]["text"]["value"]]. *)
Definition first_text_value (msg : thread_message) : outcome string :=
  match content msg with
  | [] => Raise (Exception "IndexError" "list index out of range")
  | item :: _ =>
      match text_value item with
      | None => Raise (Exception "KeyError" "'text'")
      | Some value => Return value
      end
  end.

(** The body of the [for] loop, run over the messages as the loop visits
    them. *)
Fixpoint display_loop (visited : list thread_message) : M stdout unit :=
  match visited with
  | [] => ret tt
  | msg :: rest =>
      bind (lift (first_text_value msg)) (fun content =>
      let sender :=
        if String.eqb (role msg) "assistant" then "🤖 Assistant" else "🧑 User" in
      bind (print (sender ++ ": " ++ content ++ Py.LF ++ Py.repeat "-" 60))
           (fun _ => display_loop rest))
  end.

(** [printed] is the block the loop prints for [msg]: sender label, text
    of the first content item, and a rule of sixty dashes on the next
    line. *)
Definition shown_as (msg : thread_message) (printed : string) : Prop :=
  exists value,
    first_text_value msg = Return value
    /\ printed
       = (if String.eqb (role msg) "assistant"
          then "🤖 Assistant" else "🧑 User")
         ++ ": " ++ value ++ Py.LF ++ Py.repeat "-" 60.

(** The line printed before the loop. *)
Definition summary_header : string :=
  Py.LF ++ "📨 Final Summary:" ++ Py.LF ++ Py.repeat "=" 60.

(** From [messages_response.get("data", [])] to the end of the script;
    [data] is the [data] key of the response, if present. *)
Definition display_results (data : option (list thread_message))
  : M stdout unit :=
  let messages := Py.get data [] in
  bind (print (Py.LF ++ "📨 Final Summary:" ++ Py.LF ++ Py.repeat "=" 60))
       (fun _ => display_loop (rev messages)).

End ScenariosLimited.

(** ** agent-data-acesss-scenario_one.py *)

Module ScenarioOne.

Section Tools.

Context {W conn cursor row : Type}.
Context {DB : Psycopg2 W conn cursor row}.
Context {HTTP : Requests W}.

(** [os.getenv], called inside the tools in this script. *)
Variable getenv : string -> option string.

Open Scope py_scope.

Definition query_finance_data_try : M W string :=
  let NEON_DB_URL := getenv "NEON_DB_CONNECTION_STRING" in
  conn <- connect NEON_DB_URL ;;
  cursor <- conn_cursor conn ;;
  execute cursor "SELECT * FROM finance WHERE company = 'IBM'" ;;;
  rows <- fetchall cursor ;;
  conn_close conn ;;;
  if negb (Py.truthy rows) then
    ret "No IBM financial records found in the database."
  else
    ret (Py.join Py.LF (map str_row rows)).

Definition query_finance_data : M W string :=
  try_except query_finance_data_try
    (fun e => ret (error_marker ++ " Error querying Neon DB: " ++ exn_str e)).

Definition search_ibm_news (query : string) : M W string :=
  let url := "https://google.serper.dev/search" in
  let headers :=
    [("X-API-KEY", getenv "SERPER_API_KEY");
     ("Content-Type", Some "application/json")] in
  let payload := query in
  response <- requests_post url headers payload ;;
  if negb (status_code response =? 200)%Z then
    ret (error_marker ++ " Serper search error: " ++ text response)
  else
    body <- lift (json response) ;;
    let results := Py.get (organic body) [] in
    if negb (Py.truthy results) then
      ret "No relevant search results found."
    else
      ret (Py.join Py.LF
             (map (fun r => title r ++ " - " ++ link r)
                  (Py.slice_to 3 results))).

Definition search_ibm_news_default_query : string := "IBM Q4 earnings".

Definition fetch_ibm_stock : M W string :=
  let url :=
    "https://www.alphavantage.co/query?function=GLOBAL_QUOTE&symbol=IBM&apikey="
    ++ Py.get (getenv "ALPHA_VANTAGE_API_KEY") "None" in
  response <- requests_get url ;;
  if negb (status_code response =? 200)%Z then
    ret (error_marker ++ " Failed to fetch stock data: "
         ++ Py.str_int (status_code response))
  else
    body <- lift (json response) ;;
    let data := Py.get (global_quote body) [] in
    if negb (Py.truthy data) then
      ret "No stock data found for IBM."
    else
      ret (Py.join Py.LF (map (fun kv => fst kv ++ ": " ++ snd kv) data)).

End Tools.

End ScenarioOne.

(** ** A concrete world to run the scripts in *)

Module Sample.

(** A database that is up or down with its result rows already rendered,
    the reply the search provider will give, and the role file. *)
Record world : Type := {
  db_down : option exn;
  finance_rows : list string;
  search_reply : response search_body;
  role_file : list user_entry
}.

#[export] Instance db : Psycopg2 world unit unit string := {
  connect := fun _ w =>
    match db_down w with
    | Some e => (Raise e, w)
    | None => (Return tt, w)
    end;
  conn_cursor := fun _ => ret tt;
  execute := fun _ _ => ret tt;
  fetchall := fun _ w => (Return (finance_rows w), w);
  conn_close := fun _ => ret tt;
  str_row := fun r => r
}.

#[export] Instance http : Requests world := {
  requests_get := fun _ =>
    ret {| status_code := 200; text := "{}";
           json := Return {| global_quote := None |} |};
  requests_post := fun _ _ _ w => (Return (search_reply w), w)
}.

#[export] Instance fs : RoleFile world := {
  safe_load_users := fun _ w => (Return (role_file w), w)
}.

Definition refused : exn :=
  {| exn_class := "OperationalError"; exn_str := "connection refused" |}.

Definition users : list user_entry :=
  [ {| username := "user_a"; roles := [] |};
    {| username := "user_b"; roles := ["restricted_db"; "mask_data"] |};
    {| username := "user_c"; roles := ["row_restricted"; "limited_api_access"] |};
    {| username := "user_b"; roles := ["row_restricted"] |} ].

Definition no_hits : response search_body :=
  {| status_code := 200; text := "{}";
     json := Return {| organic := None |} |}.




Definition online : world :=
  {| db_down := None; finance_rows := ["IBM"; "Apple"];
     search_reply := no_hits; role_file := users |}.

End Sample.

(** ** A database driver that records the calls made on it *)

Module Traced.

Inductive db_call : Type :=
| Connect (url : option string)
| Cursor
| Execute (sql : string)
| Fetchall
| Close.

(** The calls received so far, which calls are going to raise, and the rows
    a query yields. *)
Record world : Type := {
  calls : list db_call;
  failing : db_call -> option exn;
  table : list string
}.

(** Records [c], then returns [a] or raises as [failing] says. *)
Definition receive {A : Type} (c : db_call) (a : world -> A) : M world A :=
  fun w =>
    let w' := {| calls := (calls w ++ [c])%list;
                 failing := failing w;
                 table := table w |} in
    match failing w c with
    | Some e => (Raise e, w')
    | None => (Return (a w), w')
    end.

#[export] Instance db : Psycopg2 world unit unit string := {
  connect := fun url => receive (Connect url) (fun _ => tt);
  conn_cursor := fun _ => receive Cursor (fun _ => tt);
  execute := fun _ sql => receive (Execute sql) (fun _ => tt);
  fetchall := fun _ => receive Fetchall table;
  conn_close := fun _ => receive Close (fun _ => tt);
  str_row := fun r => r
}.

Definition fresh (failing : db_call -> option exn) (table : list string)
  : world :=
  {| calls := []; failing := failing; table := table |}.

(** The driver on which [execute] raises and every other call returns. *)
Definition execute_fails (e : exn) (c : db_call) : option exn :=
  match c with
  | Execute _ => Some e
  | _ => None
  end.

End Traced.

(** ** What it means for a database tool to swallow its errors *)

Section ErrorChannel.

Context {W conn cursor row : Type}.
Context {DB : Psycopg2 W conn cursor row}.



End ErrorChannel.

(** ** What a database tool answers when the driver does not fail *)

Section Answer.

Context {W conn cursor row : Type}.
Context {DB : Psycopg2 W conn cursor row}.

(** When every driver call returns, [tool] answers [empty_message] for an
    empty result set and the rows, one per line, otherwise; it stops in the
    world [conn.close()] left.  [empty_message] carries no error marker. *)
Definition answers_with
    (tool : M W string) (url : option string) (sql empty_message : string)
  : Prop :=
  (forall w c w1 cur w2 w3 rows w4 w5,
      connect url w = (Return c, w1) ->
      conn_cursor c w1 = (Return cur, w2) ->
      execute cur sql w2 = (Return tt, w3) ->
      fetchall cur w3 = (Return rows, w4) ->
      conn_close c w4 = (Return tt, w5) ->
      tool w
      = (Return (match rows with
                 | [] => empty_message
                 | _ :: _ => Py.join Py.LF (map str_row rows)
                 end), w5))
  /\ String.prefix error_marker empty_message = false.

End Answer.

(** ** When a database tool closes its connection *)

(** Run on a fresh recording driver, [tool] calls [close] exactly when
    none of [connect], [cursor], [execute] and [fetchall] raises. *)
Definition closes_only_on_success
    (tool : M Traced.world string) (url : option string) (sql : string)
  : Prop :=
  forall (failing : Traced.db_call -> option exn) (table : list string),
    In Traced.Close (Traced.calls (snd (tool (Traced.fresh failing table))))
    <-> failing (Traced.Connect url) = None
        /\ failing Traced.Cursor = None
        /\ failing (Traced.Execute sql) = None
        /\ failing Traced.Fetchall = None.

(** ** An HTTP client with canned replies *)

Module Canned.

(** What [requests.get] and [requests.post] are going to do. *)
Record world : Type := {
  quote_reply : outcome (response quote_body);
  search_reply : outcome (response search_body)
}.

#[export] Instance http : Requests world := {
  requests_get := fun _ w => (quote_reply w, w);
  requests_post := fun _ _ _ w => (search_reply w, w)
}.

Definition timeout : exn :=
  {| exn_class := "ConnectionError"; exn_str := "connection timed out" |}.

Definition bad_json : exn :=
  {| exn_class := "JSONDecodeError"; exn_str := "Expecting value" |}.

Definition hit (n : string) : organic_result :=
  {| title := "IBM " ++ n; link := "https://example.org/" ++ n |}.

Definition ok {body : Type} (b : body) : outcome (response body) :=
  Return {| status_code := 200; text := "{}"; json := Return b |}.

Definition failed {body : Type} (code : Z) (message : string)
  : outcome (response body) :=
  Return {| status_code := code; text := message; json := Raise bad_json |}.

End Canned.

(** * Properties *)

Import ScenariosLimited.

(** ** Membership tests *)

Lemma contains_In (x : string) (l : list string) :
  Py.contains x l = true <-> In x l.
Proof.
  unfold Py.contains. rewrite existsb_exists. split.
  - intros [y [Hy Heq]]. apply String.eqb_eq in Heq. now subst.
  - intros H. exists x. split; [assumption | apply String.eqb_refl].
Qed.

Lemma contains_not_In (x : string) (l : list string) :
  Py.contains x l = false <-> ~ In x l.
Proof.
  rewrite <- contains_In. destruct (Py.contains x l); split; intros H;
    try reflexivity; try discriminate; try congruence.
Qed.

(** ** Policy selector *)

(** C1: whenever the role set contains [restricted_db], the selector picks
    the limited-column query tool, and so neither the full nor the
    row-restricted one, whether or not [row_restricted] is present too. *)
Theorem restricted_db_selects_limited (roles : list string) :
  In "restricted_db" roles ->
  query_tool roles = "query_limited_finance_data"
  /\ query_tool roles <> "query_finance_data"
  /\ query_tool roles <> "query_row_level_finance_data".
Proof.
  intros H. apply contains_In in H.
  unfold query_tool, finance_database_task. rewrite H. cbn.
  repeat split; discriminate.
Qed.

Lemma restricted_db_selects_limited_witness :
  In "restricted_db" ["row_restricted"; "restricted_db"]
  /\ query_tool ["row_restricted"; "restricted_db"] = "query_limited_finance_data".
Proof.
  split.
  - simpl. right. left. reflexivity.
  - apply (restricted_db_selects_limited ["row_restricted"; "restricted_db"]).
    simpl. right. left. reflexivity.
Defined.

(** C4: a role set with [row_restricted] and without [restricted_db] gets
    the row-filtered query tool. *)
Theorem row_restricted_selects_row_level (roles : list string) :
  In "row_restricted" roles ->
  ~ In "restricted_db" roles ->
  query_tool roles = "query_row_level_finance_data".
Proof.
  intros Hrow Hdb.
  apply contains_In in Hrow. apply contains_not_In in Hdb.
  unfold query_tool, finance_database_task. now rewrite Hdb, Hrow.
Qed.

Lemma row_restricted_selects_row_level_witness :
  query_tool ["row_restricted"; "limited_api_access"]
  = "query_row_level_finance_data".
Proof.
  apply row_restricted_selects_row_level.
  - simpl. left. reflexivity.
  - simpl. intros [H | [H | H]]; try discriminate H. exact H.
Defined.

(** C5: a role set with neither [restricted_db] nor [row_restricted] gets
    the unrestricted full-table query tool. *)
Theorem no_restriction_selects_full (roles : list string) :
  ~ In "restricted_db" roles ->
  ~ In "row_restricted" roles ->
  query_tool roles = "query_finance_data".
Proof.
  intros Hdb Hrow.
  apply contains_not_In in Hdb. apply contains_not_In in Hrow.
  unfold query_tool, finance_database_task. now rewrite Hdb, Hrow.
Qed.

Lemma no_restriction_selects_full_witness :
  query_tool ["mask_data"] = "query_finance_data".
Proof.
  apply no_restriction_selects_full.
  - simpl. intros [H | H]; [discriminate H | exact H].
  - simpl. intros [H | H]; [discriminate H | exact H].
Defined.

(** The task list of a session, spelled out. *)
Lemma session_tasks_flow (roles : list string) :
  session_tasks (communication_flow roles)
  = "Search for IBM's Q4 financial results from the web."
    :: (query_task roles ++ " from the Neon database.")%string
    :: ((if Py.contains "limited_api_access" roles then [] else [stock_quote_task])
        ++ [present_instruction roles])%list.
Proof.
  unfold communication_flow.
  destruct (Py.contains "limited_api_access" roles); reflexivity.
Qed.

Lemma stock_quote_task_is_no_other_task (roles : list string) :
  stock_quote_task <> "Search for IBM's Q4 financial results from the web."
  /\ stock_quote_task <> query_task roles ++ " from the Neon database."
  /\ stock_quote_task <> present_instruction roles.
Proof.
  unfold stock_quote_task, query_task, finance_database_task, present_instruction.
  destruct (Py.contains "restricted_db" roles),
           (Py.contains "row_restricted" roles),
           (Py.contains "mask_data" roles);
    cbn; repeat split; discriminate.
Qed.

(** C2: the stock-quote fetch task is left out of the session's task list
    exactly when the role set contains [limited_api_access]; the role set
    {restricted_db, mask_data} therefore has it. *)
Theorem stock_task_gated_by_limited_api_access :
  (forall roles : list string,
      In "limited_api_access" roles
      <-> ~ In stock_quote_task (session_tasks (communication_flow roles)))
  /\ In stock_quote_task
        (session_tasks (communication_flow ["restricted_db"; "mask_data"])).
Proof.
  split.
  - intros roles. rewrite session_tasks_flow.
    destruct (stock_quote_task_is_no_other_task roles) as (Hs & Hq & Hp).
    destruct (Py.contains "limited_api_access" roles) eqn:Hc.
    + apply contains_In in Hc. split; [intros _ | intros _; exact Hc].
      simpl. intros [H | [H | [H | []]]]; congruence.
    + apply contains_not_In in Hc. split; [intros H; contradiction |].
      intros H. exfalso. apply H. simpl. right. right. left. reflexivity.
  - cbn. right. right. left. reflexivity.
Qed.

(** C3: with [mask_data] the presenter is told to mask revenue and profit;
    without it the presenter is asked for the full, clean report, which
    carries no masking request. *)
Theorem mask_data_selects_masked_summary (roles : list string) :
  (In "mask_data" roles ->
   present_instruction roles
   = "Summarize the financial data but mask revenue and profit."
   /\ Py.occurs "mask revenue and profit" (present_instruction roles) = true)
  /\ (~ In "mask_data" roles ->
      present_instruction roles
      = "Summarize the collected financial data into a clean report."
      /\ Py.occurs "mask" (present_instruction roles) = false).
Proof.
  unfold present_instruction. split; intros H.
  - apply contains_In in H. rewrite H. split; reflexivity.
  - apply contains_not_In in H. rewrite H. split; reflexivity.
Qed.

Lemma mask_data_selects_masked_summary_witness :
  present_instruction ["restricted_db"; "mask_data"]
  = "Summarize the financial data but mask revenue and profit."
  /\ present_instruction ["restricted_db"]
     = "Summarize the collected financial data into a clean report.".
Proof.
  split.
  - apply (mask_data_selects_masked_summary ["restricted_db"; "mask_data"]).
    simpl. right. left. reflexivity.
  - apply (mask_data_selects_masked_summary ["restricted_db"]).
    simpl. intros [H | H]; [discriminate H | exact H].
Defined.

(** ** Database tools *)




Section QueryShape.

Context {W conn cursor row : Type}.
Context {DB : Psycopg2 W conn cursor row}.

Variables (url : option string) (sql error_prefix : string).
Variable finish : list row -> M W string.

Hypothesis finish_returns :
  forall rows w, exists s, finish rows w = (Return s, w).
Hypothesis prefix_marked :
  forall s, String.prefix error_marker (error_prefix ++ s) = true.



End QueryShape.





(** ** Role store *)

Lemma get_user_roles_loop_absent (users : list user_entry) (name : string) :
  (forall u, In u users -> username u <> name) ->
  get_user_roles_loop users name = [].
Proof.
  induction users as [| user rest IH]; intros Habsent; simpl.
  - reflexivity.
  - destruct (String.eqb (username user) name) eqn:Heq.
    + apply String.eqb_eq in Heq. exfalso.
      apply (Habsent user); [left; reflexivity | exact Heq].
    + apply IH. intros u Hu. apply Habsent. right. exact Hu.
Qed.

Lemma get_user_roles_loop_first
    (before after : list user_entry) (user : user_entry) (name : string) :
  (forall u, In u before -> username u <> name) ->
  username user = name ->
  get_user_roles_loop (before ++ user :: after) name = roles user.
Proof.
  intros Hbefore Huser.
  induction before as [| b before IH]; simpl.
  - apply String.eqb_eq in Huser. now rewrite Huser.
  - destruct (String.eqb (username b) name) eqn:Heq.
    + apply String.eqb_eq in Heq. exfalso.
      apply (Hbefore b); [left; reflexivity | exact Heq].
    + apply IH. intros u Hu. apply Hbefore. right. exact Hu.
Qed.

Lemma get_user_roles_loop_present (users : list user_entry) (name : string) :
  (exists u, In u users /\ username u = name) ->
  exists u, In u users /\ username u = name
            /\ get_user_roles_loop users name = roles u.
Proof.
  induction users as [| user rest IH]; intros [u [Hin Hname]].
  - destruct Hin.
  - simpl. destruct (String.eqb (username user) name) eqn:Heq.
    + apply String.eqb_eq in Heq. exists user.
      repeat split; [left; reflexivity | exact Heq].
    + destruct Hin as [Hhead | Htail].
      * subst user. apply String.eqb_neq in Heq. contradiction.
      * destruct IH as [v (Hv & Hvname & Hroles)]; [now exists u |].
        exists v. repeat split; [right; exact Hv | exact Hvname | exact Hroles].
Qed.

(** C8: [get_user_roles] scans the [users] sequence of the role file.  When
    an entry carries the user name it returns the roles of such an entry;
    when no entry does, it returns the empty list. *)
Theorem get_user_roles_scans_users
    {W : Type} {FS : RoleFile W}
    (name : string) (w w' : W) (users : list user_entry) :
  safe_load_users "user_roles.yaml" w = (Return users, w') ->
  ((exists u, In u users /\ username u = name) ->
   exists u, In u users /\ username u = name
             /\ get_user_roles name w = (Return (roles u), w'))
  /\ ((forall u, In u users -> username u <> name) ->
      get_user_roles name w = (Return [], w')).
Proof.
  intros Hload. unfold get_user_roles, bind, ret. rewrite Hload. split.
  - intros Hpresent.
    destruct (get_user_roles_loop_present users name Hpresent)
      as [u (Hin & Hname & Hroles)].
    exists u. rewrite Hroles. repeat split; assumption.
  - intros Habsent. now rewrite get_user_roles_loop_absent.
Qed.

Lemma get_user_roles_scans_users_witness :
  get_user_roles (FS := Sample.fs) "user_z" Sample.online
  = (Return [], Sample.online)
  /\ exists u, In u Sample.users /\ username u = "user_c"
               /\ get_user_roles (FS := Sample.fs) "user_c" Sample.online
                  = (Return (roles u), Sample.online).
Proof.
  split.
  - apply (get_user_roles_scans_users (FS := Sample.fs) "user_z"
             Sample.online Sample.online Sample.users); [reflexivity |].
    simpl. intros u [H | [H | [H | [H | H]]]]; subst; simpl;
      try discriminate; contradiction.
  - apply (get_user_roles_scans_users (FS := Sample.fs) "user_c"
             Sample.online Sample.online Sample.users); [reflexivity |].
    eexists. split; [simpl; right; right; left; reflexivity | reflexivity].
Defined.

(** C10: when several entries of the [users] sequence carry the same user
    name, [get_user_roles] returns the roles of the first of them in
    sequence order, whatever the later entries are. *)
Theorem get_user_roles_first_match_wins
    {W : Type} {FS : RoleFile W}
    (name : string) (w w' : W)
    (before after : list user_entry) (user : user_entry) :
  safe_load_users "user_roles.yaml" w = (Return (before ++ user :: after)%list, w') ->
  (forall u, In u before -> username u <> name) ->
  username user = name ->
  get_user_roles name w = (Return (roles user), w').
Proof.
  intros Hload Hbefore Huser. unfold get_user_roles, bind, ret.
  rewrite Hload. now rewrite get_user_roles_loop_first.
Qed.

Lemma get_user_roles_first_match_wins_witness :
  get_user_roles (FS := Sample.fs) "user_b" Sample.online
  = (Return ["restricted_db"; "mask_data"], Sample.online).
Proof.
  apply (get_user_roles_first_match_wins (FS := Sample.fs) "user_b"
           Sample.online Sample.online
           [ {| username := "user_a"; roles := [] |} ]
           [ {| username := "user_c";
                roles := ["row_restricted"; "limited_api_access"] |};
             {| username := "user_b"; roles := ["row_restricted"] |} ]
           {| username := "user_b"; roles := ["restricted_db"; "mask_data"] |}).
  - reflexivity.
  - simpl. intros u [H | H]; [subst; simpl; discriminate | contradiction].
  - reflexivity.
Defined.

(** ** News search *)

(** C9: on a 200 reply whose [organic] array is empty or absent, the
    limited-roles script's [search_ibm_news] returns the empty string,
    where the scenario-one script's returns a no-results message. *)
Theorem search_ibm_news_empty_results
    {W : Type} {HTTP : Requests W}
    (SERPER_API_KEY : option string) (getenv : string -> option string)
    (query : string) (w w' : W)
    (reply : response search_body) (body : search_body) :
  getenv "SERPER_API_KEY" = SERPER_API_KEY ->
  requests_post "https://google.serper.dev/search"
    [("X-API-KEY", SERPER_API_KEY); ("Content-Type", Some "application/json")]
    query w = (Return reply, w') ->
  status_code reply = 200%Z ->
  json reply = Return body ->
  organic body = None \/ organic body = Some [] ->
  ScenariosLimited.search_ibm_news SERPER_API_KEY query w = (Return "", w')
  /\ ScenarioOne.search_ibm_news getenv query w
     = (Return "No relevant search results found.", w').
Proof.
  intros Hkey Hpost Hstatus Hjson Horganic.
  unfold ScenariosLimited.search_ibm_news, ScenarioOne.search_ibm_news.
  unfold bind, lift, ret. rewrite Hkey, Hpost, Hstatus, Hjson. cbn.
  destruct Horganic as [H | H]; rewrite H; split; reflexivity.
Qed.

Lemma search_ibm_news_empty_results_witness :
  ScenariosLimited.search_ibm_news (HTTP := Sample.http)
    None ScenariosLimited.search_ibm_news_default_query Sample.online
  = (Return "", Sample.online)
  /\ ScenarioOne.search_ibm_news (HTTP := Sample.http)
       (fun _ => None) ScenariosLimited.search_ibm_news_default_query
       Sample.online
     = (Return "No relevant search results found.", Sample.online).
Proof.
  apply (search_ibm_news_empty_results (HTTP := Sample.http)
           None (fun _ => None) ScenariosLimited.search_ibm_news_default_query
           Sample.online Sample.online Sample.no_hits {| organic := None |}).
  - reflexivity.
  - reflexivity.
  - reflexivity.
  - reflexivity.
  - left. reflexivity.
Defined.

(** ** The selector against the registered toolset *)

(** X1: the tool the selector names is one of the functions registered with the
    data collector exactly when the role set carries neither
    [restricted_db] nor [row_restricted]: the two restricted query tools
    are never registered. *)
Theorem selected_tool_registered_iff_unrestricted (roles : list string) :
  In (query_tool roles) registered_tools
  <-> ~ In "restricted_db" roles /\ ~ In "row_restricted" roles.
Proof.
  unfold query_tool, finance_database_task, registered_tools.
  destruct (Py.contains "restricted_db" roles) eqn:Hdb.
  - apply contains_In in Hdb. cbn. split.
    + intros [H | [H | [H | []]]]; discriminate H.
    + intros [Hno _]. contradiction.
  - apply contains_not_In in Hdb.
    destruct (Py.contains "row_restricted" roles) eqn:Hrow.
    + apply contains_In in Hrow. cbn. split.
      * intros [H | [H | [H | []]]]; discriminate H.
      * intros [_ Hno]. contradiction.
    + apply contains_not_In in Hrow. cbn. split.
      * intros _. split; assumption.
      * intros _. right. left. reflexivity.
Qed.

(** X2: the name of the selected tool reaches the agent service in no message:
    only the English task sentence does. *)
Theorem selected_tool_name_never_sent (roles : list string) (content : string) :
  In content (session_tasks (communication_flow roles)) ->
  Py.occurs (query_tool roles) content = false.
Proof.
  rewrite session_tasks_flow.
  unfold query_tool, query_task, finance_database_task, present_instruction,
    stock_quote_task.
  destruct (Py.contains "restricted_db" roles),
           (Py.contains "row_restricted" roles),
           (Py.contains "limited_api_access" roles),
           (Py.contains "mask_data" roles);
    cbn [fst snd app In];
    intros H;
    repeat (destruct H as [H | H]; [subst content; vm_compute; reflexivity |]);
    destruct H.
Qed.

Lemma selected_tool_name_never_sent_witness :
  Py.occurs (query_tool ["restricted_db"])
    "Query limited finance data from the Neon database." = false.
Proof.
  apply (selected_tool_name_never_sent ["restricted_db"]).
  cbn. right. left. reflexivity.
Defined.

(** ** Users the role file does not know *)



(** ** Database tools, continued *)

Section AnswerShape.

Context {W conn cursor row : Type}.
Context {DB : Psycopg2 W conn cursor row}.

Variables (url : option string) (sql empty_message error_prefix : string).
Variable finish : list row -> M W string.

Hypothesis finish_answers :
  forall rows w,
    finish rows w
    = (Return (match rows with
               | [] => empty_message
               | _ :: _ => Py.join Py.LF (map str_row rows)
               end), w).
Hypothesis unmarked : String.prefix error_marker empty_message = false.

Lemma guarded_answers_with :
  answers_with
    (try_except
       (bind (connect url) (fun c =>
        bind (conn_cursor c) (fun cur =>
        bind (execute cur sql) (fun _ =>
        bind (fetchall cur) (fun rows =>
        bind (conn_close c) (fun _ => finish rows))))))
       (fun e => ret (error_prefix ++ exn_str e)))
    url sql empty_message.
Proof.
  split; [| exact unmarked].
  intros w c w1 cur w2 w3 rows w4 w5 Hconnect Hcursor Hexecute Hfetch Hclose.
  unfold try_except, bind.
  rewrite Hconnect, Hcursor, Hexecute, Hfetch, Hclose, finish_answers.
  reflexivity.
Qed.

End AnswerShape.

(** X4: when no driver call raises, each finance query tool answers its own
    no-data sentence for an empty result set, which does not open with the
    error marker, and otherwise the rows joined by line feeds; nothing runs
    after [conn.close()]. *)
Theorem query_tools_answer
    {W conn cursor row : Type} {DB : Psycopg2 W conn cursor row}
    (NEON_DB_URL : option string) (getenv : string -> option string) :
  answers_with (ScenariosLimited.query_finance_data NEON_DB_URL)
    NEON_DB_URL "SELECT * FROM finance" "No finance data found."
  /\ answers_with (ScenariosLimited.query_limited_finance_data NEON_DB_URL)
       NEON_DB_URL "SELECT company, stock_price FROM finance"
       "No limited finance data found."
  /\ answers_with (ScenariosLimited.query_row_level_finance_data NEON_DB_URL)
       NEON_DB_URL "SELECT * FROM finance WHERE user_role = 'restricted'"
       "No row level restricted data found."
  /\ answers_with (ScenarioOne.query_finance_data getenv)
       (getenv "NEON_DB_CONNECTION_STRING")
       "SELECT * FROM finance WHERE company = 'IBM'"
       "No IBM financial records found in the database.".
Proof.
  split; [| split; [| split]].
  - apply (guarded_answers_with NEON_DB_URL "SELECT * FROM finance"
             "No finance data found."
             (error_marker ++ " Error querying Neon: ")
             (fun rows =>
                ret (if Py.truthy rows
                     then Py.join Py.LF (map str_row rows)
                     else "No finance data found."))).
    + intros [| r rows] w; reflexivity.
    + reflexivity.
  - apply (guarded_answers_with NEON_DB_URL
             "SELECT company, stock_price FROM finance"
             "No limited finance data found."
             (error_marker ++ " Error querying Neon: ")
             (fun rows =>
                ret (if Py.truthy rows
                     then Py.join Py.LF (map str_row rows)
                     else "No limited finance data found."))).
    + intros [| r rows] w; reflexivity.
    + reflexivity.
  - apply (guarded_answers_with NEON_DB_URL
             "SELECT * FROM finance WHERE user_role = 'restricted'"
             "No row level restricted data found."
             (error_marker ++ " Error querying Neon: ")
             (fun rows =>
                ret (if Py.truthy rows
                     then Py.join Py.LF (map str_row rows)
                     else "No row level restricted data found."))).
    + intros [| r rows] w; reflexivity.
    + reflexivity.
  - apply (guarded_answers_with (getenv "NEON_DB_CONNECTION_STRING")
             "SELECT * FROM finance WHERE company = 'IBM'"
             "No IBM financial records found in the database."
             (error_marker ++ " Error querying Neon DB: ")
             (fun rows =>
                if negb (Py.truthy rows)
                then ret "No IBM financial records found in the database."
                else ret (Py.join Py.LF (map str_row rows)))).
    + intros [| r rows] w; reflexivity.
    + reflexivity.
Qed.

Lemma query_tools_answer_witness :
  ScenariosLimited.query_limited_finance_data (DB := Sample.db)
    (Some "postgres://neon") Sample.online
  = (Return (Py.join Py.LF ["IBM"; "Apple"]), Sample.online).
Proof.
  destruct (query_tools_answer (DB := Sample.db)
              (Some "postgres://neon") (fun _ => None)) as (_ & [H _] & _).
  apply (H Sample.online tt Sample.online tt Sample.online Sample.online
           ["IBM"; "Apple"] Sample.online Sample.online); reflexivity.
Defined.

Lemma traced_guarded_closes
    (url : option string) (sql error_prefix : string)
    (finish : list string -> M Traced.world string) :
  (forall rows w, exists s, finish rows w = (Return s, w)) ->
  closes_only_on_success
    (try_except
       (bind (connect (Psycopg2 := Traced.db) url) (fun c =>
        bind (conn_cursor (Psycopg2 := Traced.db) c) (fun cur =>
        bind (execute (Psycopg2 := Traced.db) cur sql) (fun _ =>
        bind (fetchall (Psycopg2 := Traced.db) cur) (fun rows =>
        bind (conn_close (Psycopg2 := Traced.db) c) (fun _ => finish rows))))))
       (fun e => ret (error_prefix ++ exn_str e)))
    url sql.
Proof.
  intros Hfinish failing table.
  unfold try_except, bind, ret, Traced.fresh.
  cbn [connect conn_cursor execute fetchall conn_close Traced.db].
  unfold Traced.receive. cbn [Traced.calls Traced.failing Traced.table].
  destruct (failing (Traced.Connect url)) as [e |] eqn:Hconnect; cbn.
  { destruct (isinstance_Exception e); cbn;
      (split; [intros [H | H]; [discriminate H | destruct H]
              | intros (H & _); discriminate H]). }
  destruct (failing Traced.Cursor) as [e |] eqn:Hcursor; cbn.
  { destruct (isinstance_Exception e); cbn;
      (split; [intros [H | [H | H]]; [discriminate H .. | destruct H]
              | intros (_ & H & _); discriminate H]). }
  destruct (failing (Traced.Execute sql)) as [e |] eqn:Hexecute; cbn.
  { destruct (isinstance_Exception e); cbn;
      (split; [intros [H | [H | [H | H]]]; [discriminate H .. | destruct H]
              | intros (_ & _ & H & _); discriminate H]). }
  destruct (failing Traced.Fetchall) as [e |] eqn:Hfetch; cbn.
  { destruct (isinstance_Exception e); cbn;
      (split; [intros [H | [H | [H | [H | H]]]]; [discriminate H .. | destruct H]
              | intros (_ & _ & _ & H); discriminate H]). }
  assert (Hcalled :
            In Traced.Close
              [Traced.Connect url; Traced.Cursor; Traced.Execute sql;
               Traced.Fetchall; Traced.Close])
    by (do 4 right; left; reflexivity).
  destruct (failing Traced.Close) as [e |] eqn:Hclose; cbn.
  - destruct (isinstance_Exception e); cbn;
      (split; [intros _; repeat split; reflexivity | intros _; exact Hcalled]).
  - match goal with
    | |- context [finish ?rows ?w] =>
        destruct (Hfinish rows w) as [s Hs]; rewrite Hs
    end.
    cbn. split; [intros _; repeat split; reflexivity | intros _; exact Hcalled].
Qed.

(** X5: a finance query tool closes its connection only when nothing went
    wrong: on a driver that records its calls, [close] is called exactly
    when none of [connect], [cursor], [execute] and [fetchall] raises, so a
    failure after a successful [connect] leaves the connection open. *)
Theorem query_tools_close_only_on_success
    (NEON_DB_URL : option string) (getenv : string -> option string) :
  closes_only_on_success
    (ScenariosLimited.query_finance_data (DB := Traced.db) NEON_DB_URL)
    NEON_DB_URL "SELECT * FROM finance"
  /\ closes_only_on_success
       (ScenariosLimited.query_limited_finance_data (DB := Traced.db) NEON_DB_URL)
       NEON_DB_URL "SELECT company, stock_price FROM finance"
  /\ closes_only_on_success
       (ScenariosLimited.query_row_level_finance_data (DB := Traced.db) NEON_DB_URL)
       NEON_DB_URL "SELECT * FROM finance WHERE user_role = 'restricted'"
  /\ closes_only_on_success
       (ScenarioOne.query_finance_data (DB := Traced.db) getenv)
       (getenv "NEON_DB_CONNECTION_STRING")
       "SELECT * FROM finance WHERE company = 'IBM'".
Proof.
  split; [| split; [| split]].
  - apply (traced_guarded_closes NEON_DB_URL "SELECT * FROM finance"
             (error_marker ++ " Error querying Neon: ")
             (fun rows =>
                ret (if Py.truthy rows
                     then Py.join Py.LF (map str_row rows)
                     else "No finance data found."))).
    intros rows w. eexists. reflexivity.
  - apply (traced_guarded_closes NEON_DB_URL
             "SELECT company, stock_price FROM finance"
             (error_marker ++ " Error querying Neon: ")
             (fun rows =>
                ret (if Py.truthy rows
                     then Py.join Py.LF (map str_row rows)
                     else "No limited finance data found."))).
    intros rows w. eexists. reflexivity.
  - apply (traced_guarded_closes NEON_DB_URL
             "SELECT * FROM finance WHERE user_role = 'restricted'"
             (error_marker ++ " Error querying Neon: ")
             (fun rows =>
                ret (if Py.truthy rows
                     then Py.join Py.LF (map str_row rows)
                     else "No row level restricted data found."))).
    intros rows w. eexists. reflexivity.
  - apply (traced_guarded_closes (getenv "NEON_DB_CONNECTION_STRING")
             "SELECT * FROM finance WHERE company = 'IBM'"
             (error_marker ++ " Error querying Neon DB: ")
             (fun rows =>
                if negb (Py.truthy rows)
                then ret "No IBM financial records found in the database."
                else ret (Py.join Py.LF (map str_row rows)))).
    intros rows w. destruct (Py.truthy rows); eexists; reflexivity.
Qed.

Lemma query_tools_close_only_on_success_witness :
  ~ In Traced.Close
      (Traced.calls
         (snd (ScenariosLimited.query_finance_data (DB := Traced.db)
                 (Some "postgres://neon")
                 (Traced.fresh (Traced.execute_fails Sample.refused) [])))).
Proof.
  destruct (query_tools_close_only_on_success
              (Some "postgres://neon") (fun _ => None)) as [H _].
  intros Hclose.
  apply (H (Traced.execute_fails Sample.refused) []) in Hclose.
  destruct Hclose as (_ & _ & Hexecute & _). discriminate Hexecute.
Defined.

(** ** News search, continued *)

(** X6: of the hits a 200 reply carries, only the first three reach the answer
    of [search_ibm_news], one per line as title, dash, link; whatever
    follows them is dropped.  Both scripts agree here. *)
Theorem search_ibm_news_top_three
    {W : Type} {HTTP : Requests W}
    (SERPER_API_KEY : option string) (getenv : string -> option string)
    (query : string) (w w' : W)
    (reply : response search_body) (body : search_body)
    (r1 r2 r3 : organic_result) (rest : list organic_result) :
  getenv "SERPER_API_KEY" = SERPER_API_KEY ->
  requests_post "https://google.serper.dev/search"
    [("X-API-KEY", SERPER_API_KEY); ("Content-Type", Some "application/json")]
    query w = (Return reply, w') ->
  status_code reply = 200%Z ->
  json reply = Return body ->
  organic body = Some (r1 :: r2 :: r3 :: rest) ->
  let answer :=
    Py.join Py.LF [title r1 ++ " - " ++ link r1;
                   title r2 ++ " - " ++ link r2;
                   title r3 ++ " - " ++ link r3] in
  ScenariosLimited.search_ibm_news SERPER_API_KEY query w = (Return answer, w')
  /\ ScenarioOne.search_ibm_news getenv query w = (Return answer, w').
Proof.
  intros Hkey Hpost Hstatus Hjson Horganic answer.
  unfold ScenariosLimited.search_ibm_news, ScenarioOne.search_ibm_news.
  unfold bind, lift, ret.
  rewrite Hkey, Hpost, Hstatus, Hjson, Horganic. split; reflexivity.
Qed.

Lemma search_ibm_news_top_three_witness :
  let w := {| Canned.quote_reply := Raise Canned.timeout;
              Canned.search_reply :=
                Canned.ok {| organic := Some [Canned.hit "a"; Canned.hit "b";
                                              Canned.hit "c"; Canned.hit "d"] |} |} in
  ScenariosLimited.search_ibm_news (HTTP := Canned.http) None "IBM" w
  = (Return (Py.join Py.LF ["IBM a - https://example.org/a";
                            "IBM b - https://example.org/b";
                            "IBM c - https://example.org/c"]), w).
Proof.
  intros w.
  apply (search_ibm_news_top_three (HTTP := Canned.http) None (fun _ => None)
           "IBM" w w
           {| status_code := 200; text := "{}";
              json := Return {| organic := Some [Canned.hit "a"; Canned.hit "b";
                                                 Canned.hit "c"; Canned.hit "d"] |} |}
           {| organic := Some [Canned.hit "a"; Canned.hit "b";
                               Canned.hit "c"; Canned.hit "d"] |}
           (Canned.hit "a") (Canned.hit "b") (Canned.hit "c") [Canned.hit "d"]);
    reflexivity.
Defined.

(** X7: on a reply whose status is not 200, [search_ibm_news] answers an error
    string made of the marker, a fixed label and the raw text of the reply;
    the body is never decoded. *)
Theorem search_ibm_news_bad_status
    {W : Type} {HTTP : Requests W}
    (SERPER_API_KEY : option string) (getenv : string -> option string)
    (query : string) (w w' : W) (reply : response search_body) :
  getenv "SERPER_API_KEY" = SERPER_API_KEY ->
  requests_post "https://google.serper.dev/search"
    [("X-API-KEY", SERPER_API_KEY); ("Content-Type", Some "application/json")]
    query w = (Return reply, w') ->
  status_code reply <> 200%Z ->
  ScenariosLimited.search_ibm_news SERPER_API_KEY query w
  = (Return (error_marker ++ " Serper API error: " ++ text reply), w')
  /\ ScenarioOne.search_ibm_news getenv query w
     = (Return (error_marker ++ " Serper search error: " ++ text reply), w').
Proof.
  intros Hkey Hpost Hstatus. apply Z.eqb_neq in Hstatus.
  unfold ScenariosLimited.search_ibm_news, ScenarioOne.search_ibm_news.
  unfold bind, lift, ret. rewrite Hkey, Hpost, Hstatus. split; reflexivity.
Qed.

Lemma search_ibm_news_bad_status_witness :
  let w := {| Canned.quote_reply := Raise Canned.timeout;
              Canned.search_reply := Canned.failed 403 "Unauthorized." |} in
  ScenarioOne.search_ibm_news (HTTP := Canned.http) (fun _ => None) "IBM" w
  = (Return (error_marker ++ " Serper search error: Unauthorized."), w).
Proof.
  intros w.
  apply (search_ibm_news_bad_status (HTTP := Canned.http) None (fun _ => None)
           "IBM" w w
           {| status_code := 403; text := "Unauthorized.";
              json := Raise Canned.bad_json |}).
  - reflexivity.
  - reflexivity.
  - discriminate.
Defined.

(** X8: [search_ibm_news] has no handler: an exception raised by
    [requests.post], or by [response.json()] on a 200 reply, leaves the
    tool as it is, in both scripts. *)
Theorem search_ibm_news_unguarded
    {W : Type} {HTTP : Requests W}
    (SERPER_API_KEY : option string) (getenv : string -> option string)
    (query : string) (w w' : W) (e : exn) :
  getenv "SERPER_API_KEY" = SERPER_API_KEY ->
  (requests_post "https://google.serper.dev/search"
     [("X-API-KEY", SERPER_API_KEY); ("Content-Type", Some "application/json")]
     query w = (Raise e, w')
   \/ exists reply,
       requests_post "https://google.serper.dev/search"
         [("X-API-KEY", SERPER_API_KEY); ("Content-Type", Some "application/json")]
         query w = (Return reply, w')
       /\ status_code reply = 200%Z
       /\ json reply = Raise e) ->
  ScenariosLimited.search_ibm_news SERPER_API_KEY query w = (Raise e, w')
  /\ ScenarioOne.search_ibm_news getenv query w = (Raise e, w').
Proof.
  intros Hkey Hfail.
  unfold ScenariosLimited.search_ibm_news, ScenarioOne.search_ibm_news.
  unfold bind, lift, ret. rewrite Hkey.
  destruct Hfail as [Hpost | [reply (Hpost & Hstatus & Hjson)]].
  - rewrite Hpost. split; reflexivity.
  - rewrite Hpost, Hstatus, Hjson. split; reflexivity.
Qed.

Lemma search_ibm_news_unguarded_witness :
  let w := {| Canned.quote_reply := Raise Canned.timeout;
              Canned.search_reply := Raise Canned.timeout |} in
  ScenariosLimited.search_ibm_news (HTTP := Canned.http) None "IBM" w
  = (Raise Canned.timeout, w).
Proof.
  intros w.
  apply (search_ibm_news_unguarded (HTTP := Canned.http) None (fun _ => None)
           "IBM" w w Canned.timeout).
  - reflexivity.
  - left. reflexivity.
Defined.

(** ** Stock quote *)

(** X9: on a 200 reply the stock tools answer one [key: value] line per item of
    the [Global Quote] object, in its order, and a no-data sentence when
    the object is empty or the key is missing. *)
Theorem stock_quote_payload
    {W : Type} {HTTP : Requests W}
    (ALPHA_VANTAGE_API_KEY : option string) (getenv : string -> option string)
    (w w' : W) (reply : response quote_body) (body : quote_body) :
  getenv "ALPHA_VANTAGE_API_KEY" = ALPHA_VANTAGE_API_KEY ->
  requests_get
    ("https://www.alphavantage.co/query?function=GLOBAL_QUOTE&symbol=IBM&apikey="
     ++ Py.get ALPHA_VANTAGE_API_KEY "None") w = (Return reply, w') ->
  status_code reply = 200%Z ->
  json reply = Return body ->
  let data := Py.get (global_quote body) [] in
  let lines := Py.join Py.LF (map (fun kv => fst kv ++ ": " ++ snd kv) data) in
  ScenariosLimited.fetch_financial_data ALPHA_VANTAGE_API_KEY w
  = (Return (match data with
             | [] => "No stock data found."
             | _ :: _ => lines
             end), w')
  /\ ScenarioOne.fetch_ibm_stock getenv w
     = (Return (match data with
                | [] => "No stock data found for IBM."
                | _ :: _ => lines
                end), w').
Proof.
  intros Hkey Hget Hstatus Hjson data lines. subst data lines.
  unfold ScenariosLimited.fetch_financial_data, ScenarioOne.fetch_ibm_stock.
  unfold bind, lift, ret. rewrite Hkey, Hget, Hstatus, Hjson. cbn.
  destruct (Py.get (global_quote body) []); split; reflexivity.
Qed.

Lemma stock_quote_payload_witness :
  let w := {| Canned.quote_reply := Canned.ok {| global_quote := None |};
              Canned.search_reply := Raise Canned.timeout |} in
  ScenariosLimited.fetch_financial_data (HTTP := Canned.http) None w
  = (Return "No stock data found.", w)
  /\ ScenarioOne.fetch_ibm_stock (HTTP := Canned.http) (fun _ => None) w
     = (Return "No stock data found for IBM.", w).
Proof.
  intros w.
  apply (stock_quote_payload (HTTP := Canned.http) None (fun _ => None) w w
           {| status_code := 200; text := "{}";
              json := Return {| global_quote := None |} |}
           {| global_quote := None |}); reflexivity.
Defined.

(** X10: on a reply whose status is not 200 the two stock tools report
    differently: the limited-roles script quotes the raw text of the reply,
    the scenario-one script only the status code in decimal.  Neither
    decodes the body. *)
Theorem stock_quote_bad_status
    {W : Type} {HTTP : Requests W}
    (ALPHA_VANTAGE_API_KEY : option string) (getenv : string -> option string)
    (w w' : W) (reply : response quote_body) :
  getenv "ALPHA_VANTAGE_API_KEY" = ALPHA_VANTAGE_API_KEY ->
  requests_get
    ("https://www.alphavantage.co/query?function=GLOBAL_QUOTE&symbol=IBM&apikey="
     ++ Py.get ALPHA_VANTAGE_API_KEY "None") w = (Return reply, w') ->
  status_code reply <> 200%Z ->
  ScenariosLimited.fetch_financial_data ALPHA_VANTAGE_API_KEY w
  = (Return (error_marker ++ " API error: " ++ text reply), w')
  /\ ScenarioOne.fetch_ibm_stock getenv w
     = (Return (error_marker ++ " Failed to fetch stock data: "
                ++ Py.str_int (status_code reply)), w').
Proof.
  intros Hkey Hget Hstatus. apply Z.eqb_neq in Hstatus.
  unfold ScenariosLimited.fetch_financial_data, ScenarioOne.fetch_ibm_stock.
  unfold bind, lift, ret. rewrite Hkey, Hget, Hstatus. split; reflexivity.
Qed.

Lemma stock_quote_bad_status_witness :
  let w := {| Canned.quote_reply := Canned.failed 503 "Service Unavailable";
              Canned.search_reply := Raise Canned.timeout |} in
  ScenariosLimited.fetch_financial_data (HTTP := Canned.http) (Some "demo") w
  = (Return (error_marker ++ " API error: Service Unavailable"), w)
  /\ ScenarioOne.fetch_ibm_stock (HTTP := Canned.http) (fun _ => Some "demo") w
     = (Return (error_marker ++ " Failed to fetch stock data: 503"), w).
Proof.
  intros w.
  apply (stock_quote_bad_status (HTTP := Canned.http)
           (Some "demo") (fun _ => Some "demo") w w
           {| status_code := 503; text := "Service Unavailable";
              json := Raise Canned.bad_json |}).
  - reflexivity.
  - reflexivity.
  - discriminate.
Defined.

(** X11: the stock tools have no handler either: an exception raised by
    [requests.get], or by [response.json()] on a 200 reply, leaves the
    tool as it is. *)
Theorem stock_quote_unguarded
    {W : Type} {HTTP : Requests W}
    (ALPHA_VANTAGE_API_KEY : option string) (getenv : string -> option string)
    (w w' : W) (e : exn) :
  getenv "ALPHA_VANTAGE_API_KEY" = ALPHA_VANTAGE_API_KEY ->
  (requests_get
     ("https://www.alphavantage.co/query?function=GLOBAL_QUOTE&symbol=IBM&apikey="
      ++ Py.get ALPHA_VANTAGE_API_KEY "None") w = (Raise e, w')
   \/ exists reply,
       requests_get
         ("https://www.alphavantage.co/query?function=GLOBAL_QUOTE&symbol=IBM&apikey="
          ++ Py.get ALPHA_VANTAGE_API_KEY "None") w = (Return reply, w')
       /\ status_code reply = 200%Z
       /\ json reply = Raise e) ->
  ScenariosLimited.fetch_financial_data ALPHA_VANTAGE_API_KEY w = (Raise e, w')
  /\ ScenarioOne.fetch_ibm_stock getenv w = (Raise e, w').
Proof.
  intros Hkey Hfail.
  unfold ScenariosLimited.fetch_financial_data, ScenarioOne.fetch_ibm_stock.
  unfold bind, lift, ret. rewrite Hkey.
  destruct Hfail as [Hget | [reply (Hget & Hstatus & Hjson)]].
  - rewrite Hget. split; reflexivity.
  - rewrite Hget, Hstatus, Hjson. split; reflexivity.
Qed.

Lemma stock_quote_unguarded_witness :
  let w := {| Canned.quote_reply :=
                Return {| status_code := 200; text := "<html>";
                          json := Raise Canned.bad_json |};
              Canned.search_reply := Raise Canned.timeout |} in
  ScenarioOne.fetch_ibm_stock (HTTP := Canned.http) (fun _ => None) w
  = (Raise Canned.bad_json, w).
Proof.
  intros w.
  apply (stock_quote_unguarded (HTTP := Canned.http) None (fun _ => None)
           w w Canned.bad_json).
  - reflexivity.
  - right. eexists. repeat split; reflexivity.
Defined.

(** ** Display of the conversation *)

Lemma display_loop_prints (visited : list thread_message) (out : stdout) :
  Forall (fun msg => exists value, first_text_value msg = Return value) visited ->
  exists blocks,
    display_loop visited out = (Return tt, (out ++ blocks)%list)
    /\ Forall2 shown_as visited blocks.
Proof.
  intros Hall. revert out.
  induction Hall as [| msg rest [value Hvalue] _ IH]; intros out.
  - exists []. split; [cbn; now rewrite app_nil_r | constructor].
  - cbn [display_loop]. unfold bind, lift, print. rewrite Hvalue.
    match goal with
    | |- context [display_loop rest ?o] => destruct (IH o) as [blocks [Hrun Hshown]]
    end.
    rewrite Hrun.
    exists (((if String.eqb (role msg) "assistant"
              then "🤖 Assistant" else "🧑 User")
             ++ ": " ++ value ++ Py.LF ++ Py.repeat "-" 60) :: blocks).
    split.
    + now rewrite <- app_assoc.
    + constructor; [exists value; split; [exact Hvalue | reflexivity] | exact Hshown].
Qed.

Lemma display_loop_stops
    (shown : list thread_message) (bad : thread_message)
    (unseen : list thread_message) (e : exn) (out : stdout) :
  Forall (fun msg => exists value, first_text_value msg = Return value) shown ->
  first_text_value bad = Raise e ->
  exists blocks,
    display_loop (shown ++ bad :: unseen) out = (Raise e, (out ++ blocks)%list)
    /\ Forall2 shown_as shown blocks.
Proof.
  intros Hall Hbad. revert out.
  induction Hall as [| msg rest [value Hvalue] _ IH]; intros out.
  - exists []. split; [| constructor].
    cbn. unfold bind, lift. rewrite Hbad. now rewrite app_nil_r.
  - cbn [display_loop app]. unfold bind, lift, print. rewrite Hvalue.
    match goal with
    | |- context [display_loop _ ?o] => destruct (IH o) as [blocks [Hrun Hshown]]
    end.
    rewrite Hrun.
    exists (((if String.eqb (role msg) "assistant"
              then "🤖 Assistant" else "🧑 User")
             ++ ": " ++ value ++ Py.LF ++ Py.repeat "-" 60) :: blocks).
    split.
    + now rewrite <- app_assoc.
    + constructor; [exists value; split; [exact Hvalue | reflexivity] | exact Hshown].
Qed.

(** X12: when every message has a first content item with text, the display
    prints the header and then one block per message, oldest first, that
    is, in the reverse of the order the service lists them in; a message is
    labelled as the assistant's only when its role is exactly
    [assistant].  Without a [data] key only the header is printed. *)
Theorem display_results_oldest_first
    (data : option (list thread_message)) (out : stdout) :
  Forall (fun msg => exists value, first_text_value msg = Return value)
    (Py.get data []) ->
  exists blocks,
    display_results data out
    = (Return tt, (out ++ summary_header :: blocks)%list)
    /\ Forall2 shown_as (rev (Py.get data [])) blocks.
Proof.
  intros Hall. unfold display_results, bind, print.
  apply Forall_rev in Hall.
  destruct (display_loop_prints (rev (Py.get data []))
              (out ++ [summary_header])%list Hall)
    as [blocks [Hrun Hshown]].
  exists blocks. split; [| exact Hshown].
  fold summary_header. rewrite Hrun. now rewrite <- app_assoc.
Qed.

Lemma display_results_oldest_first_witness :
  exists blocks,
    display_results
      (Some [ {| role := "assistant";
                 content := [ {| text_value := Some "IBM is up." |} ] |};
              {| role := "user";
                 content := [ {| text_value := Some "Summarize." |} ] |} ]) []
    = (Return tt, summary_header :: blocks)
    /\ Forall2 shown_as
         (rev [ {| role := "assistant";
                   content := [ {| text_value := Some "IBM is up." |} ] |};
                {| role := "user";
                   content := [ {| text_value := Some "Summarize." |} ] |} ])
         blocks.
Proof.
  apply (display_results_oldest_first
           (Some [ {| role := "assistant";
                      content := [ {| text_value := Some "IBM is up." |} ] |};
                   {| role := "user";
                      content := [ {| text_value := Some "Summarize." |} ] |} ])
           []).
  repeat constructor; eexists; reflexivity.
Defined.

(** X13: a message whose content list is empty, or whose first item has no
    text, stops the display with the [IndexError] or [KeyError] of the
    lookup: the header and the blocks of the older messages are already
    printed, nothing is printed for that message or any newer one. *)
Theorem display_results_stops_at_textless_message
    (newer older : list thread_message) (bad : thread_message)
    (e : exn) (out : stdout) :
  Forall (fun msg => exists value, first_text_value msg = Return value) older ->
  first_text_value bad = Raise e ->
  exists blocks,
    display_results (Some (newer ++ bad :: older)%list) out
    = (Raise e, (out ++ summary_header :: blocks)%list)
    /\ Forall2 shown_as (rev older) blocks.
Proof.
  intros Hall Hbad. unfold display_results, bind, print.
  apply Forall_rev in Hall. cbn [Py.get].
  rewrite rev_app_distr. cbn [rev]. rewrite <- app_assoc. cbn [app].
  destruct (display_loop_stops (rev older) bad (rev newer) e
              (out ++ [summary_header])%list Hall Hbad)
    as [blocks [Hrun Hshown]].
  exists blocks. split; [| exact Hshown].
  fold summary_header. rewrite Hrun. now rewrite <- app_assoc.
Qed.

Lemma display_results_stops_at_textless_message_witness :
  exists blocks,
    display_results
      (Some [ {| role := "assistant";
                 content := [ {| text_value := Some "IBM is up." |} ] |};
              {| role := "assistant"; content := [] |};
              {| role := "user";
                 content := [ {| text_value := Some "Summarize." |} ] |} ]) []
    = (Raise (Exception "IndexError" "list index out of range"),
       summary_header :: blocks)
    /\ Forall2 shown_as
         (rev [ {| role := "user";
                   content := [ {| text_value := Some "Summarize." |} ] |} ])
         blocks.
Proof.
  apply (display_results_stops_at_textless_message
           [ {| role := "assistant";
                content := [ {| text_value := Some "IBM is up." |} ] |} ]
           [ {| role := "user";
                content := [ {| text_value := Some "Summarize." |} ] |} ]
           {| role := "assistant"; content := [] |}
           (Exception "IndexError" "list index out of range") []).
  - repeat constructor. eexists. reflexivity.
  - reflexivity.
Defined.
